(** * The schema-node validator of [packages/marshaller/lib/SchemaType.ts]

    A shallow embedding of [isBaseType], [isKeyConfiguration],
    [isIndexKeyConfiguration], [isKeyableType] and [isSchemaType], together
    with the fragment of ECMAScript they run on: [typeof], [Boolean(..)],
    property reads, the [in] operator (with its conversion of the left
    operand to a property key and its walk up the prototype chain),
    [Array.isArray], [Array.prototype.map/filter/indexOf], [Object.keys]
    and [for .. of] over arrays.

    Vocabulary.  The specification renames the source's fields: its
    [kind] is the source's [type], [persistedName] is [attributeName],
    [role] is [type] of a key configuration, [isVersionAttribute] is
    [versionAttribute], and [isValidSchemaNode] is [isSchemaType].  A field
    is called _absent_ when reading it yields [undefined], which is the
    only notion of absence the source tests for. *)

From Stdlib Require Import List String Ascii Bool ZArith Lia Arith.
From Stdlib Require Import DecimalString.
Import ListNotations.
Local Open Scope string_scope.
Local Open Scope list_scope.

Set Warnings "-register-all".

(** ** Completions: a result, or a thrown error *)

(** A [TypeError] raised by the language itself, or whatever a
    caller-supplied function throws. *)
Inductive JsError : Type :=
| TypeError
| UserError.

Inductive Completion (A : Type) : Type :=
| Normal (a : A)
| Throw (e : JsError).

Arguments Normal {A} a.
Arguments Throw {A} e.

Definition bind {A B : Type} (c : Completion A) (k : A -> Completion B)
  : Completion B :=
  match c with
  | Normal a => k a
  | Throw e => Throw e
  end.

Notation "x <- c ;; k" := (bind c (fun x => k))
  (at level 61, c at next level, right associativity).

(** [a && b] and [a || b] on boolean operands: the right operand is
    evaluated only when the left one does not decide the result. *)
Definition andThen (a b : Completion bool) : Completion bool :=
  x <- a ;; if x then b else Normal false.

Definition orElse (a b : Completion bool) : Completion bool :=
  x <- a ;; if x then Normal true else b.

Infix "&&&" := andThen (at level 40, left associativity).
Infix "|||" := orElse (at level 50, left associativity).

Fixpoint mapM {A B : Type} (f : A -> Completion B) (l : list A)
  : Completion (list B) :=
  match l with
  | [] => Normal []
  | x :: rest => y <- f x ;; ys <- mapM f rest ;; Normal (y :: ys)
  end.

(** ** JavaScript values

    Values are finite trees, so a cyclic schema has no representation.
    A number is an integer-valued one, printed in decimal.  A function is
    known by its source text (what [Function.prototype.toString] returns)
    and by the completion of calling it without arguments, which is the
    only way the validator can ever run a caller-supplied function
    (through a property-key conversion).  An object is a plain object: its
    own enumerable string-named data properties in [Object.keys] order,
    the first entry of a name being the property, and [Object.prototype]
    as prototype.  Arrays are dense and, like functions, carry no extra
    named properties.  Accessor properties, symbol-named properties,
    proxies and user-defined prototypes are not represented. *)

Inductive JsValue : Type :=
| JsUndefined
| JsNull
| JsBoolean (b : bool)
| JsNumber (n : Z)
| JsBigInt (n : Z)
| JsString (s : string)
| JsSymbol (description : string)
| JsFunction (source : string) (call : Completion JsValue)
| JsArray (elements : list JsValue)
| JsObject (properties : list (string * JsValue)).

Definition Properties : Type := list (string * JsValue).

Definition typeof (v : JsValue) : string :=
  match v with
  | JsUndefined => "undefined"
  | JsNull => "object"
  | JsBoolean _ => "boolean"
  | JsNumber _ => "number"
  | JsBigInt _ => "bigint"
  | JsString _ => "string"
  | JsSymbol _ => "symbol"
  | JsFunction _ _ => "function"
  | JsArray _ => "object"
  | JsObject _ => "object"
  end.

(** [Boolean(v)]. *)
Definition ToBoolean (v : JsValue) : bool :=
  match v with
  | JsUndefined | JsNull => false
  | JsBoolean b => b
  | JsNumber n | JsBigInt n => negb (n =? 0)%Z
  | JsString s => negb (s =? "")
  | JsSymbol _ | JsFunction _ _ | JsArray _ | JsObject _ => true
  end.

Definition isObject (v : JsValue) : bool :=
  match v with
  | JsFunction _ _ | JsArray _ | JsObject _ => true
  | _ => false
  end.

Definition isUndefined (v : JsValue) : bool :=
  match v with
  | JsUndefined => true
  | _ => false
  end.

Definition isArray (v : JsValue) : bool :=
  match v with
  | JsArray _ => true
  | _ => false
  end.

(** Own property lookup in a property table. *)
Fixpoint getOwn (name : string) (props : Properties) : option JsValue :=
  match props with
  | [] => None
  | (k, v) :: rest => if k =? name then Some v else getOwn name rest
  end.

(** [arg.name], for a [name] that no built-in prototype defines (which
    holds of each of the eleven names the validator reads): reading from
    [null] or [undefined] throws, a plain object yields its own property
    or [undefined], every other value yields [undefined]. *)
Definition Get (arg : JsValue) (name : string) : Completion JsValue :=
  match arg with
  | JsUndefined | JsNull => Throw TypeError
  | JsObject props =>
      match getOwn name props with
      | Some v => Normal v
      | None => Normal JsUndefined
      end
  | _ => Normal JsUndefined
  end.

(** [haystack.indexOf(needle)] on an array of strings. *)
Fixpoint indexOfFrom (i : Z) (haystack : list string) (needle : string) : Z :=
  match haystack with
  | [] => (-1)%Z
  | x :: rest =>
      if x =? needle then i else indexOfFrom (i + 1)%Z rest needle
  end.

Definition indexOf (haystack : list string) (needle : string) : Z :=
  indexOfFrom 0%Z haystack needle.

(** ** Property keys and the [in] operator *)

Inductive PropertyKey : Type :=
| KeyString (s : string)
| KeySymbol (description : string).

(** ToString of a primitive; a symbol cannot be converted. *)
Definition primitiveToString (v : JsValue) : Completion string :=
  match v with
  | JsUndefined => Normal "undefined"
  | JsNull => Normal "null"
  | JsBoolean true => Normal "true"
  | JsBoolean false => Normal "false"
  | JsNumber n | JsBigInt n => Normal (NilZero.string_of_int (Z.to_int n))
  | JsString s => Normal s
  | _ => Throw TypeError
  end.

(** One step of OrdinaryToPrimitive: [method] is what [Get(O, name)]
    found.  A callable is called; a primitive result ends the search
    ([Some]), anything else lets it continue ([None]). *)
Definition tryMethod (method : JsValue) : Completion (option JsValue) :=
  match method with
  | JsFunction _ call =>
      r <- call ;; Normal (if isObject r then None else Some r)
  | _ => Normal None
  end.

(** OrdinaryToPrimitive(O, string) for a plain object with property table
    [props]: try [toString], then [valueOf].  The inherited
    [Object.prototype.toString] answers ["[object Object]"]; the inherited
    [Object.prototype.valueOf] answers [O] itself, which is no primitive;
    when neither method yields a primitive a TypeError is thrown. *)
Definition objectToPrimitive (props : Properties) : Completion JsValue :=
  first <- match getOwn "toString" props with
           | Some method => tryMethod method
           | None => Normal (Some (JsString "[object Object]"))
           end ;;
  match first with
  | Some p => Normal p
  | None =>
      second <- match getOwn "valueOf" props with
                | Some method => tryMethod method
                | None => Normal None
                end ;;
      match second with
      | Some p => Normal p
      | None => Throw TypeError
      end
  end.

(** ToString, with [Array.prototype.join] for arrays ([undefined] and
    [null] elements print as the empty string). *)
Fixpoint ToString (v : JsValue) : Completion string :=
  match v with
  | JsFunction source _ => Normal source
  | JsArray elements =>
      (fix join (els : list JsValue) : Completion string :=
         match els with
         | [] => Normal ""
         | e :: rest =>
             s <- match e with
                  | JsUndefined | JsNull => Normal ""
                  | _ => ToString e
                  end ;;
             match rest with
             | [] => Normal s
             | _ :: _ =>
                 t <- join rest ;;
                 Normal (String.append s (String.append "," t))
             end
         end) elements
  | JsObject props => p <- objectToPrimitive props ;; primitiveToString p
  | _ => primitiveToString v
  end.

(** ToPropertyKey: a symbol is its own key, everything else is
    converted to a string. *)
Definition ToPropertyKey (v : JsValue) : Completion PropertyKey :=
  match v with
  | JsSymbol d => Normal (KeySymbol d)
  | JsObject props =>
      p <- objectToPrimitive props ;;
      match p with
      | JsSymbol d => Normal (KeySymbol d)
      | _ => s <- primitiveToString p ;; Normal (KeyString s)
      end
  | _ => s <- ToString v ;; Normal (KeyString s)
  end.

(** The names every plain object inherits from [Object.prototype]
    (ECMAScript 20.1.3 and Annex B.2.2). *)
Definition ObjectPrototype : list string :=
  [ "constructor"; "__defineGetter__"; "__defineSetter__"; "hasOwnProperty";
    "__lookupGetter__"; "__lookupSetter__"; "isPrototypeOf";
    "propertyIsEnumerable"; "toString"; "valueOf"; "__proto__";
    "toLocaleString" ].

Definition hasOwnProperty (props : Properties) (name : string) : bool :=
  existsb (fun entry => fst entry =? name) props.

(** HasProperty on an object literal: own properties first, then those
    of [Object.prototype]. *)
Definition HasProperty (props : Properties) (key : PropertyKey) : bool :=
  match key with
  | KeyString name =>
      hasOwnProperty props name || existsb (String.eqb name) ObjectPrototype
  | KeySymbol _ => false
  end.

(** [v in object] where [object] is an object literal. *)
Definition In_ (v : JsValue) (object : Properties) : Completion bool :=
  key <- ToPropertyKey v ;; Normal (HasProperty object key).

(** ** The source's registries *)

Definition TypeTags : Properties :=
  [ ("Binary", JsString "Binary");
    ("BinarySet", JsString "BinarySet");
    ("Boolean", JsString "Boolean");
    ("Collection", JsString "Collection");
    ("Custom", JsString "Custom");
    ("Date", JsString "Date");
    ("Document", JsString "Document");
    ("Hash", JsString "Hash");
    ("List", JsString "List");
    ("Map", JsString "Map");
    ("Null", JsString "Null");
    ("Number", JsString "Number");
    ("NumberSet", JsString "NumberSet");
    ("String", JsString "String");
    ("StringSet", JsString "StringSet");
    ("Tuple", JsString "Tuple") ].

Definition KeyTypes : Properties :=
  [ ("HASH", JsString "HASH");
    ("RANGE", JsString "RANGE") ].

(** [keyof typeof TypeTags] and [keyof typeof KeyTypes]: the names the
    registries declare themselves. *)
Definition TypeTag (name : string) : Prop := In name (map fst TypeTags).
Definition KeyType (name : string) : Prop := In name (map fst KeyTypes).

(** ** The validator *)

Definition isBaseType (arg : JsValue) : Completion bool :=
  Normal (ToBoolean arg)
  &&& Normal (typeof arg =? "object")
  &&& (tag <- Get arg "type" ;; Normal (typeof tag =? "string"))
  &&& (tag <- Get arg "type" ;; In_ tag TypeTags)
  &&& (attributeName <- Get arg "attributeName" ;;
       Normal (indexOf ["string"; "undefined"]
                 (typeof attributeName) >? -1)%Z).

Definition isKeyConfiguration (arg : JsValue) : Completion bool :=
  Normal (ToBoolean arg)
  &&& (role <- Get arg "type" ;; In_ role KeyTypes).

Definition isIndexKeyConfiguration (arg : JsValue) : Completion bool :=
  isKeyConfiguration arg
  &&& (indexName <- Get arg "indexName" ;;
       Normal (typeof indexName =? "string")).

(** [array.map(f)]; calling [map] on a value that has no such method
    throws. *)
Definition arrayMap {B : Type} (f : JsValue -> Completion B) (array : JsValue)
  : Completion (list B) :=
  match array with
  | JsArray elements => mapM f elements
  | _ => Throw TypeError
  end.

Definition isKeyableType (arg : JsValue) : Completion bool :=
  keyConfiguration <- Get arg "keyConfiguration" ;;
  indexKeyConfigurations <- Get arg "indexKeyConfigurations" ;;
  (Normal (isUndefined keyConfiguration)
   ||| isKeyConfiguration keyConfiguration)
  &&& (Normal (isUndefined indexKeyConfigurations)
       ||| (Normal (isArray indexKeyConfigurations)
            &&& (flags <- arrayMap isIndexKeyConfiguration
                            indexKeyConfigurations ;;
                 Normal (List.length (filter negb flags) =? 0)%nat))).

(** A [for (.. of items)] loop whose body may [return]: [Some r] is the
    returned value, [None] means the loop ran to its end. *)
Fixpoint forOf {A R : Type} (items : list A)
  (body : A -> Completion (option R)) : Completion (option R) :=
  match items with
  | [] => Normal None
  | x :: rest =>
      r <- body x ;;
      match r with
      | Some v => Normal (Some v)
      | None => forOf rest body
      end
  end.

(** [if (!isSchemaType(member)) { return false; }], the body of both
    loops over children. *)
Definition rejectInvalid (isSchemaType : JsValue -> Completion bool)
  (member : JsValue) : Completion (option bool) :=
  ok <- isSchemaType member ;;
  Normal (if negb ok then Some false else None).

(** The own properties of a plain object, a shadowed entry dropped. *)
Fixpoint ownEntriesFrom (seen : list string) (props : Properties)
  : Properties :=
  match props with
  | [] => []
  | (k, v) :: rest =>
      if existsb (String.eqb k) seen then ownEntriesFrom seen rest
      else (k, v) :: ownEntriesFrom (k :: seen) rest
  end.

Definition ownEntries (props : Properties) : Properties :=
  ownEntriesFrom [] props.

(** The values [members[key]] for [key] running through
    [Object.keys(members)], where [members] is a non-null object: the own
    property values of a plain object, the elements of an array. *)
Definition memberValues (members : JsValue) : list JsValue :=
  match members with
  | JsObject props => map snd (ownEntries props)
  | JsArray elements => elements
  | _ => []
  end.

(** The elements a [for .. of] visits; only arrays are iterated here. *)
Definition arrayElements (array : JsValue) : list JsValue :=
  match array with
  | JsArray elements => elements
  | _ => []
  end.

(** [case name:] of the [switch (arg.type)]: strict equality with a
    string literal. *)
Definition isCase (tag : JsValue) (name : string) : bool :=
  match tag with
  | JsString s => s =? name
  | _ => false
  end.

(** The body of [isSchemaType]; the function's recursive calls go through
    the first argument. *)
Definition isSchemaType_body (isSchemaType : JsValue -> Completion bool)
  (arg : JsValue) : Completion bool :=
  base <- isBaseType arg ;;
  if base then
    tag <- Get arg "type" ;;
    if isCase tag "Binary" || isCase tag "String" then
      isKeyableType arg
    else if isCase tag "Custom" then
      (marshall <- Get arg "marshall" ;;
       Normal (typeof marshall =? "function"))
      &&& (unmarshall <- Get arg "unmarshall" ;;
           Normal (typeof unmarshall =? "function"))
    else if isCase tag "Document" then
      valueConstructor <- Get arg "valueConstructor" ;;
      members <- Get arg "members" ;;
      if negb (ToBoolean members) || negb (typeof members =? "object") then
        Normal false
      else
        r <- forOf (memberValues members) (rejectInvalid isSchemaType) ;;
        match r with
        | Some result => Normal result
        | None =>
            Normal (indexOf ["function"; "undefined"]
                      (typeof valueConstructor) >? -1)%Z
        end
    else if isCase tag "List" || isCase tag "Map" then
      memberType <- Get arg "memberType" ;;
      isSchemaType memberType
    else if isCase tag "Number" then
      isKeyableType arg
      &&& (versionAttribute <- Get arg "versionAttribute" ;;
           Normal (indexOf ["boolean"; "undefined"]
                     (typeof versionAttribute) >? -1)%Z)
    else if isCase tag "Tuple" then
      members <- Get arg "members" ;;
      if negb (isArray members) then
        Normal false
      else
        r <- forOf (arrayElements members) (rejectInvalid isSchemaType) ;;
        match r with
        | Some result => Normal result
        | None => Normal true
        end
    else
      Normal true
  else
    Normal false.

(** The nesting depth of a value. *)
Fixpoint height (v : JsValue) : nat :=
  match v with
  | JsArray elements =>
      S ((fix deepest (els : list JsValue) : nat :=
            match els with
            | [] => 0
            | e :: rest => Nat.max (height e) (deepest rest)
            end) elements)
  | JsObject props =>
      S ((fix deepest (ps : list (string * JsValue)) : nat :=
            match ps with
            | [] => 0
            | (_, e) :: rest => Nat.max (height e) (deepest rest)
            end) props)
  | _ => 0
  end.

(** [isSchemaType] recurses into the children of its argument only, so
    unrolling the body once more than the argument is deep reaches every
    call; [isSchemaType_eq] below shows the result to be the function the
    source defines. *)
Fixpoint isSchemaType_unrolled (depth : nat) (arg : JsValue)
  : Completion bool :=
  match depth with
  | O => Normal false
  | S d => isSchemaType_body (isSchemaType_unrolled d) arg
  end.

Definition isSchemaType (arg : JsValue) : Completion bool :=
  isSchemaType_unrolled (S (height arg)) arg.

(** Object literals, as the examples write them. *)
Definition obj (props : Properties) : JsValue := JsObject props.

(** ** Members, and the base contract in the specification's words *)

(** [v] is the value of an own property of the object [members], or an
    element of the array [members]. *)
Definition hasMember (members v : JsValue) : Prop :=
  match members with
  | JsObject props => exists key, getOwn key props = Some v
  | JsArray elements => In v elements
  | _ => False
  end.

Definition isNull (v : JsValue) : bool :=
  match v with
  | JsNull => true
  | _ => false
  end.

(** Membership in the tag registry: one of the declared kind tags. *)
Definition isRegisteredKind (kind : string) : bool :=
  existsb (String.eqb kind) (map fst TypeTags).

(** The Base Contract Check in the specification's words: the value is a
    non-null object, its kind field is a string present in the tag
    registry, and its persistedName field is absent or a string. *)
Definition BaseContractCheck (value : JsValue) : bool :=
  (typeof value =? "object") && negb (isNull value)
  && match Get value "type" with
     | Normal (JsString kind) => isRegisteredKind kind
     | _ => false
     end
  && match Get value "attributeName" with
     | Normal JsUndefined => true
     | Normal (JsString _) => true
     | _ => false
     end.

(** ** Sample nodes *)

Definition inheritedKindNode : JsValue :=
  obj [("type", JsString "toString")].

Definition emptyNameNode : JsValue :=
  obj [("type", JsString "Boolean"); ("attributeName", JsString "")].

Definition namedNode : JsValue :=
  obj [("type", JsString "String"); ("attributeName", JsString "id")].

Definition inheritedRoleNode : JsValue :=
  obj [("type", JsString "Number");
       ("keyConfiguration", obj [("type", JsString "toString")])].

Definition unconvertibleRoleNode : JsValue :=
  obj [("type", JsString "String");
       ("keyConfiguration", obj [("type", obj [("toString", JsNull)])])].

(** Both functions throw when called. *)
Definition customNode : JsValue :=
  obj [("type", JsString "Custom");
       ("marshall", JsFunction "x => ({S: x})" (Throw UserError));
       ("unmarshall", JsFunction "x => x.S" (Throw UserError))].

Definition documentMembers : JsValue :=
  obj [("a", obj [("type", JsString "String")]);
       ("b", obj [("type", JsString "Number")])].

Definition documentNode : JsValue :=
  obj [("type", JsString "Document"); ("members", documentMembers)].

Definition namedMemberListNode : JsValue :=
  obj [("type", JsString "List"); ("memberType", namedNode)].

Definition tupleMembers : JsValue :=
  JsArray [obj [("type", JsString "Boolean")];
           obj [("type", JsString "String")]].

Definition tupleNode : JsValue :=
  obj [("type", JsString "Tuple"); ("members", tupleMembers)].

Definition nullKeyNode : JsValue :=
  obj [("type", JsString "String"); ("keyConfiguration", JsNull)].

Definition numberNode (extra : Properties) : JsValue :=
  obj (("type", JsString "Number") :: extra).

(** ** The tree the validator walks *)

(** The properties [isSchemaType] reads from the node it is given. *)
Definition nodeFields : list string :=
  [ "type"; "attributeName"; "keyConfiguration"; "indexKeyConfigurations";
    "marshall"; "unmarshall"; "valueConstructor"; "members"; "memberType";
    "versionAttribute" ].

(** The kinds that have a [case] of their own in the [switch]. *)
Definition switchCases : list string :=
  [ "Binary"; "String"; "Custom"; "Document"; "List"; "Map"; "Number";
    "Tuple" ].

(** [child] is a value [isSchemaType] calls itself on when given [arg]:
    the [memberType] of a List or Map, a member of a Document, an element
    of a Tuple. *)
Inductive schemaChild (arg : JsValue) : JsValue -> Prop :=
| child_memberType (memberType : JsValue) :
    Get arg "type" = Normal (JsString "List") \/
    Get arg "type" = Normal (JsString "Map") ->
    Get arg "memberType" = Normal memberType ->
    schemaChild arg memberType
| child_document (members v : JsValue) :
    Get arg "type" = Normal (JsString "Document") ->
    Get arg "members" = Normal members ->
    hasMember members v ->
    schemaChild arg v
| child_tuple (elements : list JsValue) (v : JsValue) :
    Get arg "type" = Normal (JsString "Tuple") ->
    Get arg "members" = Normal (JsArray elements) ->
    In v elements ->
    schemaChild arg v.

Inductive schemaDescendant (arg : JsValue) : JsValue -> Prop :=
| descendant_self : schemaDescendant arg arg
| descendant_step (child d : JsValue) :
    schemaChild arg child -> schemaDescendant child d ->
    schemaDescendant arg d.



(** [v] inside [depth] one-element arrays. *)
Fixpoint inArrays (depth : nat) (v : JsValue) : JsValue :=
  match depth with
  | O => v
  | S d => JsArray [inArrays d v]
  end.

(** More sample nodes. *)

Definition unconvertibleRole : JsValue := obj [("toString", JsNull)].

Definition bogusIndexKey : JsValue := obj [("type", JsString "BOGUS")].

Definition throwingIndexKey : JsValue := obj [("type", unconvertibleRole)].

Definition gsiKey : JsValue :=
  obj [("type", JsString "RANGE"); ("indexName", JsString "gsi1")].

Definition versionedNumberNode : JsValue :=
  numberNode [("versionAttribute", JsBoolean true)].

Definition nestedNode : JsValue :=
  obj [("type", JsString "Document");
       ("members", obj [("tags", namedMemberListNode);
                        ("pair", tupleNode)])].

Definition throwingStringNode : JsValue := unconvertibleRoleNode.


(** ** Basic facts about the operators *)

Lemma bind_Normal (A B : Type) (c : Completion A) (k : A -> Completion B)
  (b : B) :
  bind c k = Normal b <-> exists a, c = Normal a /\ k a = Normal b.
Proof.
  destruct c as [a|e]; simpl; split.
  - intros H. exists a. auto.
  - intros [a' [Ha Hk]]. inversion Ha. subst. exact Hk.
  - discriminate.
  - intros [a' [Ha _]]. discriminate.
Qed.

Lemma andThen_true (a b : Completion bool) :
  a &&& b = Normal true <-> a = Normal true /\ b = Normal true.
Proof.
  unfold andThen. destruct a as [[|]|e]; simpl; split; intros H;
    try discriminate; try tauto; destruct H; try discriminate; auto.
Qed.

Lemma orElse_true (a b : Completion bool) :
  a ||| b = Normal true <->
  a = Normal true \/ (a = Normal false /\ b = Normal true).
Proof.
  unfold orElse. destruct a as [[|]|e]; simpl; split; intros H; auto;
    destruct H as [H|[H1 H2]]; try discriminate; auto.
Qed.

Lemma forOf_ext (A R : Type) (items : list A)
  (f g : A -> Completion (option R)) :
  (forall x, In x items -> f x = g x) -> forOf items f = forOf items g.
Proof.
  induction items as [|x rest IH]; intros H; simpl.
  - reflexivity.
  - rewrite (H x (or_introl eq_refl)).
    destruct (g x) as [[r|]|e]; simpl; auto.
    apply IH. intros y Hy. apply H. right. exact Hy.
Qed.

(** ** The recursion of [isSchemaType] is well-founded *)

Lemma height_entry (k : string) (v : JsValue) (props : Properties) :
  In (k, v) props -> height v < height (JsObject props).
Proof.
  simpl. induction props as [|[k' v'] rest IH]; intros H.
  - destruct H.
  - destruct H as [H|H].
    + inversion H. subst. lia.
    + specialize (IH H). lia.
Qed.

Lemma height_element (v : JsValue) (elements : list JsValue) :
  In v elements -> height v < height (JsArray elements).
Proof.
  simpl. induction elements as [|e rest IH]; intros H.
  - destruct H.
  - destruct H as [H|H].
    + subst. lia.
    + specialize (IH H). lia.
Qed.

Lemma getOwn_In (name : string) (props : Properties) (v : JsValue) :
  getOwn name props = Some v -> In (name, v) props.
Proof.
  induction props as [|[k v'] rest IH]; simpl; intros H.
  - discriminate.
  - destruct (String.eqb_spec k name) as [E|E].
    + inversion H. subst. left. reflexivity.
    + right. apply IH. exact H.
Qed.

Lemma height_Get (props : Properties) (name : string) (v : JsValue) :
  Get (JsObject props) name = Normal v -> height v < height (JsObject props).
Proof.
  simpl. destruct (getOwn name props) as [w|] eqn:E; intros H;
    inversion H; subst.
  - eapply height_entry. eapply getOwn_In. exact E.
  - simpl. lia.
Qed.

Lemma ownEntriesFrom_In (seen : list string) (props : Properties)
  (entry : string * JsValue) :
  In entry (ownEntriesFrom seen props) -> In entry props.
Proof.
  revert seen. induction props as [|[k v] rest IH]; simpl; intros seen H.
  - exact H.
  - destruct (existsb (String.eqb k) seen).
    + right. eapply IH. exact H.
    + destruct H as [H|H]; [left; exact H | right; eapply IH; exact H].
Qed.

Lemma height_memberValues (members member : JsValue) :
  In member (memberValues members) -> height member < height members.
Proof.
  destruct members; simpl; try tauto.
  - apply height_element.
  - intros H. apply in_map_iff in H. destruct H as [[k v] [Hv Hin]].
    simpl in Hv. subst. eapply height_entry.
    eapply ownEntriesFrom_In. exact Hin.
Qed.

Lemma height_arrayElements (members member : JsValue) :
  In member (arrayElements members) -> height member < height members.
Proof.
  destruct members; simpl; try tauto. apply height_element.
Qed.

(** A value that passes [isBaseType] is a plain object. *)
Lemma isBaseType_object (arg : JsValue) :
  isBaseType arg = Normal true -> exists props, arg = JsObject props.
Proof.
  destruct arg; try (intros H; vm_compute in H; discriminate).
  - destruct b; intros H; vm_compute in H; discriminate.
  - unfold isBaseType. simpl. destruct (negb (n =? 0)%Z); discriminate.
  - unfold isBaseType. simpl. destruct (negb (n =? 0)%Z); discriminate.
  - unfold isBaseType. simpl. destruct (negb (s =? "")); discriminate.
  - intros _. eexists. reflexivity.
Qed.

Lemma isSchemaType_body_local (f g : JsValue -> Completion bool)
  (arg : JsValue) :
  (forall v, height v < height arg -> f v = g v) ->
  isSchemaType_body f arg = isSchemaType_body g arg.
Proof.
  intros Hfg. unfold isSchemaType_body.
  destruct (isBaseType arg) as [[|]|e] eqn:Hbase; cbn [bind];
    try reflexivity.
  destruct (isBaseType_object _ Hbase) as [props ->].
  destruct (Get (JsObject props) "type") as [tag|e]; cbn [bind];
    try reflexivity.
  destruct (isCase tag "Binary" || isCase tag "String"); try reflexivity.
  destruct (isCase tag "Custom"); try reflexivity.
  destruct (isCase tag "Document").
  { destruct (Get (JsObject props) "valueConstructor"); cbn [bind];
      try reflexivity.
    destruct (Get (JsObject props) "members") as [members|e] eqn:Hm;
      cbn [bind]; try reflexivity.
    destruct (negb (ToBoolean members) || negb (typeof members =? "object"));
      try reflexivity.
    erewrite forOf_ext; [reflexivity|].
    intros member Hin. unfold rejectInvalid. rewrite Hfg; [reflexivity|].
    apply height_memberValues in Hin. apply height_Get in Hm. lia. }
  destruct (isCase tag "List" || isCase tag "Map").
  { destruct (Get (JsObject props) "memberType") as [memberType|e] eqn:Hm;
      cbn [bind]; try reflexivity.
    apply Hfg. eapply height_Get. exact Hm. }
  destruct (isCase tag "Number"); try reflexivity.
  destruct (isCase tag "Tuple"); try reflexivity.
  destruct (Get (JsObject props) "members") as [members|e] eqn:Hm;
    cbn [bind]; try reflexivity.
  destruct (negb (isArray members)); try reflexivity.
  erewrite forOf_ext; [reflexivity|].
  intros member Hin. unfold rejectInvalid. rewrite Hfg; [reflexivity|].
  apply height_arrayElements in Hin. apply height_Get in Hm. lia.
Qed.

Lemma isSchemaType_unrolled_stable (n m : nat) (arg : JsValue) :
  height arg < n -> height arg < m ->
  isSchemaType_unrolled n arg = isSchemaType_unrolled m arg.
Proof.
  revert m arg. induction n as [|n IH]; intros m arg Hn Hm; [lia|].
  destruct m as [|m]; [lia|]. simpl.
  apply isSchemaType_body_local. intros v Hv. apply IH; lia.
Qed.

(** [isSchemaType] satisfies the source's defining equation. *)
Lemma isSchemaType_eq (arg : JsValue) :
  isSchemaType arg = isSchemaType_body isSchemaType arg.
Proof.
  unfold isSchemaType at 1. simpl.
  apply isSchemaType_body_local. intros v Hv.
  unfold isSchemaType. apply isSchemaType_unrolled_stable; lia.
Qed.

(** The equation has no other solution: on trees, [isSchemaType] is the
    function the source defines. *)
Lemma isSchemaType_unique (f : JsValue -> Completion bool) :
  (forall arg, f arg = isSchemaType_body f arg) ->
  forall arg, f arg = isSchemaType arg.
Proof.
  intros Hf arg.
  assert (H : forall n v, height v < n -> f v = isSchemaType v).
  { induction n as [|n IH]; intros v Hv; [lia|].
    rewrite Hf, isSchemaType_eq. apply isSchemaType_body_local.
    intros w Hw. apply IH. lia. }
  apply (H (S (height arg))). lia.
Qed.

(** ** What [isBaseType] accepts *)

(** [isBaseType] never throws: every operand that could is guarded by the
    ones before it. *)
Lemma isBaseType_total (arg : JsValue) :
  isBaseType arg = Normal true \/ isBaseType arg = Normal false.
Proof.
  destruct arg; try (right; reflexivity).
  - destruct b; right; reflexivity.
  - right. unfold isBaseType. simpl. destruct (negb (n =? 0)%Z); reflexivity.
  - right. unfold isBaseType. simpl. destruct (negb (n =? 0)%Z); reflexivity.
  - right. unfold isBaseType. simpl. destruct (negb (s =? "")); reflexivity.
  - unfold isBaseType. cbn [ToBoolean typeof andThen bind String.eqb].
    change ("object" =? "object") with true. cbn [bind andThen].
    destruct (Get (JsObject properties) "type") as [tag|e] eqn:Htag;
      [|simpl in Htag; destruct (getOwn "type" properties); discriminate].
    cbn [bind].
    destruct tag; try (right; reflexivity).
    change (typeof (JsString s) =? "string") with true. cbn [bind].
    unfold In_. cbn [ToPropertyKey ToString primitiveToString bind].
    destruct (HasProperty TypeTags (KeyString s)); [|right; reflexivity].
    destruct (Get (JsObject properties) "attributeName") as [a|e] eqn:Ha;
      [|simpl in Ha; destruct (getOwn "attributeName" properties);
        discriminate].
    cbn [bind].
    destruct (indexOf ["string"; "undefined"] (typeof a) >? -1)%Z;
      [left|right]; reflexivity.
Qed.

Lemma indexOf_string_undefined (v : JsValue) :
  (indexOf ["string"; "undefined"] (typeof v) >? -1)%Z = true <->
  v = JsUndefined \/ exists s, v = JsString s.
Proof.
  destruct v; try destruct b; simpl; split; intros H;
    try discriminate; try (left; reflexivity);
    try (right; eexists; reflexivity);
    try reflexivity;
    destruct H as [H|[s' H]]; discriminate.
Qed.

(** The exact condition under which [isBaseType] answers [true]. *)
Lemma isBaseType_true (arg : JsValue) :
  isBaseType arg = Normal true <->
  exists props tag attributeName,
    arg = JsObject props /\
    Get arg "type" = Normal (JsString tag) /\
    HasProperty TypeTags (KeyString tag) = true /\
    Get arg "attributeName" = Normal attributeName /\
    (attributeName = JsUndefined \/ exists s, attributeName = JsString s).
Proof.
  split.
  - intros H. destruct (isBaseType_object _ H) as [props ->].
    unfold isBaseType in H.
    repeat (apply andThen_true in H; destruct H as [H ?]).
    match goal with
    | [ H1 : bind (Get _ "type") (fun _ => Normal _) = _,
        H2 : bind (Get _ "type") (fun _ => In_ _ _) = _,
        H3 : bind (Get _ "attributeName") _ = _ |- _ ] =>
        apply bind_Normal in H1; destruct H1 as [tag [Htag Hstr]];
        apply bind_Normal in H2; destruct H2 as [tag' [Htag' Hin]];
        apply bind_Normal in H3; destruct H3 as [a [Ha Hidx]]
    end.
    rewrite Htag in Htag'. inversion Htag'. subst tag'.
    destruct tag; try discriminate.
    exists props, s, a. repeat split; auto.
    + unfold In_ in Hin. cbn [ToPropertyKey ToString primitiveToString bind]
        in Hin. injection Hin as Hin. exact Hin.
    + apply indexOf_string_undefined. injection Hidx as Hidx. exact Hidx.
  - intros [props [tag [a [-> [Htag [Hin [Ha Hattr]]]]]]].
    unfold isBaseType. rewrite Htag, Ha. cbn [bind].
    unfold In_. cbn [ToPropertyKey ToString primitiveToString bind].
    rewrite Hin.
    apply indexOf_string_undefined in Hattr. rewrite Hattr. reflexivity.
Qed.

(** When [isBaseType] refuses its argument, [isSchemaType] returns [false]
    at once. *)
Lemma isSchemaType_not_base (arg : JsValue) :
  isBaseType arg = Normal false -> isSchemaType arg = Normal false.
Proof.
  intros H. rewrite isSchemaType_eq. unfold isSchemaType_body.
  rewrite H. reflexivity.
Qed.

(** The registry declares sixteen tags, pairwise distinct. *)
Lemma TypeTags_count :
  List.length TypeTags = 16 /\ NoDup (map fst TypeTags).
Proof.
  split; [reflexivity|].
  repeat (constructor;
          [simpl; intros H;
           repeat (destruct H as [H|H]; [discriminate|]); exact H|]).
  constructor.
Qed.

Lemma hasOwnProperty_In (props : Properties) (name : string) :
  hasOwnProperty props name = true <-> In name (map fst props).
Proof.
  unfold hasOwnProperty. rewrite existsb_exists. split.
  - intros [[k v] [Hin Heq]]. simpl in Heq. apply String.eqb_eq in Heq.
    subst k. apply in_map_iff. exists (name, v). auto.
  - intros H. apply in_map_iff in H. destruct H as [[k v] [Heq Hin]].
    simpl in Heq. subst. exists (name, v). split; [exact Hin|].
    simpl. apply String.eqb_refl.
Qed.

(** A kind that is neither declared by [TypeTags] nor inherited from
    [Object.prototype] is refused. *)
Lemma isSchemaType_unregistered_kind (props : Properties) (k : string) :
  Get (JsObject props) "type" = Normal (JsString k) ->
  ~ TypeTag k -> ~ In k ObjectPrototype ->
  isSchemaType (JsObject props) = Normal false.
Proof.
  intros Hk Htag Hproto. apply isSchemaType_not_base.
  destruct (isBaseType_total (JsObject props)) as [H|H]; [|exact H].
  exfalso. apply isBaseType_true in H.
  destruct H as [props' [tag [a [_ [Htag' [Hin _]]]]]].
  rewrite Hk in Htag'. inversion Htag'. subst tag.
  unfold HasProperty in Hin. apply orb_true_iff in Hin.
  destruct Hin as [Hin|Hin].
  - apply Htag. apply hasOwnProperty_In. exact Hin.
  - apply Hproto. apply existsb_exists in Hin. destruct Hin as [x [Hx Heq]].
    apply String.eqb_eq in Heq. subst. exact Hx.
Qed.

(** ** One equation per [case] of the [switch] *)

Lemma Get_object (props : Properties) (name : string) :
  exists v, Get (JsObject props) name = Normal v.
Proof.
  simpl. destruct (getOwn name props); eexists; reflexivity.
Qed.

Ltac enter_case Hbase Htag :=
  rewrite isSchemaType_eq; unfold isSchemaType_body;
  rewrite Hbase; cbn [bind]; rewrite Htag; cbn [bind].

Lemma isSchemaType_Binary_String (arg : JsValue) :
  isBaseType arg = Normal true ->
  Get arg "type" = Normal (JsString "Binary") \/
  Get arg "type" = Normal (JsString "String") ->
  isSchemaType arg = isKeyableType arg.
Proof.
  intros Hbase [Htag|Htag]; enter_case Hbase Htag; reflexivity.
Qed.

Lemma isSchemaType_Number (arg : JsValue) :
  isBaseType arg = Normal true ->
  Get arg "type" = Normal (JsString "Number") ->
  isSchemaType arg =
  isKeyableType arg
  &&& (versionAttribute <- Get arg "versionAttribute" ;;
       Normal (indexOf ["boolean"; "undefined"]
                 (typeof versionAttribute) >? -1)%Z).
Proof.
  intros Hbase Htag. enter_case Hbase Htag. reflexivity.
Qed.

Lemma isSchemaType_Custom (arg : JsValue) :
  isBaseType arg = Normal true ->
  Get arg "type" = Normal (JsString "Custom") ->
  isSchemaType arg =
  (marshall <- Get arg "marshall" ;;
   Normal (typeof marshall =? "function"))
  &&& (unmarshall <- Get arg "unmarshall" ;;
       Normal (typeof unmarshall =? "function")).
Proof.
  intros Hbase Htag. enter_case Hbase Htag. reflexivity.
Qed.

Lemma isSchemaType_Document (arg : JsValue) :
  isBaseType arg = Normal true ->
  Get arg "type" = Normal (JsString "Document") ->
  isSchemaType arg =
  (valueConstructor <- Get arg "valueConstructor" ;;
   members <- Get arg "members" ;;
   if negb (ToBoolean members) || negb (typeof members =? "object") then
     Normal false
   else
     r <- forOf (memberValues members) (rejectInvalid isSchemaType) ;;
     match r with
     | Some result => Normal result
     | None =>
         Normal (indexOf ["function"; "undefined"]
                   (typeof valueConstructor) >? -1)%Z
     end).
Proof.
  intros Hbase Htag. enter_case Hbase Htag. reflexivity.
Qed.

Lemma isSchemaType_List_Map (arg : JsValue) :
  isBaseType arg = Normal true ->
  Get arg "type" = Normal (JsString "List") \/
  Get arg "type" = Normal (JsString "Map") ->
  isSchemaType arg =
  (memberType <- Get arg "memberType" ;; isSchemaType memberType).
Proof.
  intros Hbase [Htag|Htag]; enter_case Hbase Htag; reflexivity.
Qed.

Lemma isSchemaType_Tuple (arg : JsValue) :
  isBaseType arg = Normal true ->
  Get arg "type" = Normal (JsString "Tuple") ->
  isSchemaType arg =
  (members <- Get arg "members" ;;
   if negb (isArray members) then
     Normal false
   else
     r <- forOf (arrayElements members) (rejectInvalid isSchemaType) ;;
     match r with
     | Some result => Normal result
     | None => Normal true
     end).
Proof.
  intros Hbase Htag. enter_case Hbase Htag. reflexivity.
Qed.

(** ** The loops over children *)

(** The loop runs to its end exactly when every item checks [true]. *)
Lemma forOf_completes (check : JsValue -> Completion bool)
  (items : list JsValue) :
  forOf items (rejectInvalid check) = Normal None <->
  forall v, In v items -> check v = Normal true.
Proof.
  induction items as [|x rest IH]; simpl.
  - split; [intros _ v []|reflexivity].
  - unfold rejectInvalid at 1.
    destruct (check x) as [[|]|e] eqn:Hx; simpl.
    + rewrite IH. split.
      * intros H v [<-|Hv]; auto.
      * intros H v Hv. apply H. right. exact Hv.
    + split; [discriminate|].
      intros H. specialize (H x (or_introl eq_refl)). congruence.
    + split; [discriminate|].
      intros H. specialize (H x (or_introl eq_refl)). congruence.
Qed.

(** The only value the loop body ever returns is [false]. *)
Lemma forOf_returns (check : JsValue -> Completion bool)
  (items : list JsValue) (r : bool) :
  forOf items (rejectInvalid check) = Normal (Some r) -> r = false.
Proof.
  induction items as [|x rest IH]; simpl.
  - discriminate.
  - unfold rejectInvalid at 1.
    destruct (check x) as [[|]|e]; simpl.
    + exact IH.
    + intros H. injection H as H. auto.
    + discriminate.
Qed.

(** When no check throws, one failing item makes the loop return
    [false]. *)
Lemma forOf_one_false (check : JsValue -> Completion bool)
  (items : list JsValue) (bad : JsValue) :
  (forall v, In v items -> exists b, check v = Normal b) ->
  In bad items -> check bad = Normal false ->
  forOf items (rejectInvalid check) = Normal (Some false).
Proof.
  induction items as [|x rest IH]; simpl; intros Hall Hin Hbad.
  - destruct Hin.
  - unfold rejectInvalid at 1.
    destruct (Hall x (or_introl eq_refl)) as [[|] Hx]; rewrite Hx; simpl.
    + apply IH; auto. destruct Hin as [->|Hin]; [congruence|exact Hin].
    + reflexivity.
Qed.

(** ** The members of a document *)

Lemma ownEntriesFrom_spec (seen : list string) (props : Properties)
  (k : string) (v : JsValue) :
  In (k, v) (ownEntriesFrom seen props) <->
  existsb (String.eqb k) seen = false /\ getOwn k props = Some v.
Proof.
  revert seen. induction props as [|[k' v'] rest IH]; intros seen; simpl.
  - split; [tauto|]. intros [_ H]. discriminate.
  - destruct (existsb (String.eqb k') seen) eqn:Hseen.
    + rewrite IH. destruct (String.eqb_spec k' k) as [E|E]; [|tauto].
      subst k'. rewrite Hseen. split; intros [H _]; discriminate.
    + simpl. rewrite IH. simpl.
      destruct (String.eqb_spec k' k) as [E|E].
      * subst k'. rewrite String.eqb_refl, Hseen. simpl. split.
        -- intros [H|[H _]]; [|discriminate].
           injection H as H. subst. auto.
        -- intros [_ H]. injection H as H. subst. auto.
      * assert (Hk : (k =? k') = false)
          by (apply String.eqb_neq; congruence).
        rewrite Hk. simpl. split.
        -- intros [H|H]; [|exact H]. injection H as H1 H2. congruence.
        -- intros H. right. exact H.
Qed.

Lemma memberValues_hasMember (members v : JsValue) :
  In v (memberValues members) <-> hasMember members v.
Proof.
  destruct members; simpl; try tauto.
  rewrite in_map_iff. split.
  - intros [[k w] [Hw Hin]]. simpl in Hw. subst w.
    apply ownEntriesFrom_spec in Hin. exists k. tauto.
  - intros [k Hk]. exists (k, v). split; [reflexivity|].
    apply ownEntriesFrom_spec. auto.
Qed.

(** ** Key configurations *)

Lemma HasProperty_string (props : Properties) (name : string) :
  HasProperty props (KeyString name) = true <->
  In name (map fst props) \/ In name ObjectPrototype.
Proof.
  unfold HasProperty. rewrite orb_true_iff, hasOwnProperty_In.
  rewrite existsb_exists. split; intros [H|H]; auto; right.
  - destruct H as [x [Hx Heq]]. apply String.eqb_eq in Heq. subst. exact Hx.
  - exists name. split; [exact H|apply String.eqb_refl].
Qed.

(** A string role is looked up as it is, in [KeyTypes] and then in
    [Object.prototype]. *)
Lemma isKeyConfiguration_string_role (props : Properties) (role : string) :
  Get (JsObject props) "type" = Normal (JsString role) ->
  isKeyConfiguration (JsObject props) =
  Normal (HasProperty KeyTypes (KeyString role)).
Proof.
  intros H. unfold isKeyConfiguration. rewrite H. reflexivity.
Qed.

Lemma mapM_all_true (f : JsValue -> Completion bool)
  (elements : list JsValue) :
  (exists flags, mapM f elements = Normal flags /\
                 (List.length (filter negb flags) =? 0)%nat = true) <->
  forall e, In e elements -> f e = Normal true.
Proof.
  induction elements as [|x rest IH]; simpl.
  - split; [intros _ e []|]. intros _. exists []. auto.
  - split.
    + intros [flags [Hmap Hlen]].
      destruct (f x) as [b|err] eqn:Hx; [|discriminate]. cbn [bind] in Hmap.
      destruct (mapM f rest) as [bs|err]; [|discriminate].
      cbn [bind] in Hmap. injection Hmap as <-.
      destruct b; simpl in Hlen; [|discriminate].
      intros e [<-|He]; [exact Hx|].
      apply IH; [|exact He]. exists bs. auto.
    + intros H. rewrite (H x (or_introl eq_refl)). cbn [bind].
      destruct IH as [_ IH].
      destruct IH as [flags [Hmap Hlen]].
      { intros e He. apply H. right. exact He. }
      rewrite Hmap. cbn [bind]. exists (true :: flags). auto.
Qed.

(** [isKeyableType] answers [true] exactly when [keyConfiguration] is
    [undefined] or passes [isKeyConfiguration], and
    [indexKeyConfigurations] is [undefined] or an array all of whose
    elements pass [isIndexKeyConfiguration], wherever the failing one
    stands. *)
Lemma isKeyableType_true (props : Properties)
  (keyConfiguration indexKeyConfigurations : JsValue) :
  Get (JsObject props) "keyConfiguration" = Normal keyConfiguration ->
  Get (JsObject props) "indexKeyConfigurations"
  = Normal indexKeyConfigurations ->
  (isKeyableType (JsObject props) = Normal true <->
   (keyConfiguration = JsUndefined \/
    isKeyConfiguration keyConfiguration = Normal true) /\
   (indexKeyConfigurations = JsUndefined \/
    exists elements,
      indexKeyConfigurations = JsArray elements /\
      forall e, In e elements -> isIndexKeyConfiguration e = Normal true)).
Proof.
  intros Hk Hi. unfold isKeyableType. rewrite Hk, Hi. cbn [bind].
  rewrite andThen_true, !orElse_true. split.
  - intros [Hkc Hikc]. split.
    + destruct Hkc as [H|[_ H]]; [left|right; exact H].
      destruct keyConfiguration; try discriminate. reflexivity.
    + destruct Hikc as [H|[_ H]].
      * left. destruct indexKeyConfigurations; try discriminate. reflexivity.
      * right. apply andThen_true in H. destruct H as [Harr Hmap].
        destruct indexKeyConfigurations as [| | | | | | | |elements|];
          try discriminate.
        exists elements. split; [reflexivity|].
        apply mapM_all_true. cbn [arrayMap] in Hmap.
        destruct (mapM isIndexKeyConfiguration elements) as [flags|err];
          [|discriminate].
        cbn [bind] in Hmap. injection Hmap as Hmap. exists flags. auto.
  - intros [Hkc Hikc]. split.
    + destruct Hkc as [->|H]; [left; reflexivity|].
      destruct keyConfiguration; try (right; split; [reflexivity|exact H]).
      left. reflexivity.
    + destruct Hikc as [->|[elements [-> Hall]]]; [left; reflexivity|].
      right. split; [reflexivity|]. apply andThen_true.
      split; [reflexivity|]. cbn [arrayMap].
      apply mapM_all_true in Hall. destruct Hall as [flags [-> Hlen]].
      cbn [bind]. rewrite Hlen. reflexivity.
Qed.

Lemma isKeyConfiguration_null : isKeyConfiguration JsNull = Normal false.
Proof. reflexivity. Qed.

Lemma isKeyableType_null_keyConfiguration (props : Properties) :
  Get (JsObject props) "keyConfiguration" = Normal JsNull ->
  isKeyableType (JsObject props) = Normal false.
Proof.
  intros H. unfold isKeyableType. rewrite H. cbn [bind].
  destruct (Get_object props "indexKeyConfigurations") as [ikc ->].
  reflexivity.
Qed.

Lemma isRegisteredKind_TypeTag (kind : string) :
  isRegisteredKind kind = true <-> TypeTag kind.
Proof.
  unfold isRegisteredKind, TypeTag. rewrite existsb_exists. split.
  - intros [x [Hx Heq]]. apply String.eqb_eq in Heq. subst. exact Hx.
  - intros H. exists kind. split; [exact H|apply String.eqb_refl].
Qed.

(** Whatever the specification's check admits, [isBaseType] admits. *)
Lemma BaseContractCheck_isBaseType (value : JsValue) :
  BaseContractCheck value = true -> isBaseType value = Normal true.
Proof.
  unfold BaseContractCheck. intros H.
  repeat (apply andb_true_iff in H; destruct H as [H ?]).
  destruct value as [| | | | | | | | |props]; try discriminate.
  apply isBaseType_true.
  destruct (Get (JsObject props) "type") as [[]|] eqn:Htag;
    try discriminate.
  destruct (Get (JsObject props) "attributeName") as [a|] eqn:Ha;
    try discriminate.
  exists props, s, a. repeat split; auto.
  - unfold HasProperty. apply orb_true_iff. left.
    apply hasOwnProperty_In. apply isRegisteredKind_TypeTag. assumption.
  - destruct a; try discriminate; [left|right; eexists]; reflexivity.
Qed.

Lemma nonnull_object_guard (members : JsValue) :
  negb (ToBoolean members) || negb (typeof members =? "object") = false <->
  typeof members = "object" /\ members <> JsNull.
Proof.
  destruct members; simpl; split; intros H;
    try discriminate; try (destruct H; congruence);
    try (split; [reflexivity|discriminate]); try reflexivity.
  - destruct b; discriminate.
  - destruct (n =? 0)%Z; discriminate.
  - destruct (n =? 0)%Z; discriminate.
  - destruct (s =? ""); discriminate.
Qed.

Lemma indexOf_function_undefined (v : JsValue) :
  (indexOf ["function"; "undefined"] (typeof v) >? -1)%Z = true <->
  v = JsUndefined \/ typeof v = "function".
Proof.
  destruct v; try destruct b; simpl; split; intros H;
    try discriminate; try (left; reflexivity); try (right; reflexivity);
    try reflexivity; destruct H as [H|H]; discriminate.
Qed.

(** ** Examples of the specification, section 8 *)

Example unregistered_kinds_refused :
  isSchemaType (obj [("type", JsString "Bogus")]) = Normal false /\
  isSchemaType (obj [("type", JsString "binary")]) = Normal false /\
  isSchemaType (obj [("type", JsString "STRING")]) = Normal false.
Proof. repeat split. Qed.

Example document_examples :
  isSchemaType documentNode = Normal true /\
  isSchemaType
    (obj [("type", JsString "Document");
          ("members",
           obj [("a", obj [("type", JsString "String")]);
                ("b", JsNumber 5)])]) = Normal false.
Proof. split; reflexivity. Qed.

Example list_examples :
  isSchemaType
    (obj [("type", JsString "List");
          ("memberType", obj [("type", JsString "String")])])
  = Normal true /\
  isSchemaType
    (obj [("type", JsString "List");
          ("memberType", obj [("type", JsString "Bogus")])])
  = Normal false.
Proof. split; reflexivity. Qed.

Example tuple_examples :
  isSchemaType tupleNode = Normal true /\
  isSchemaType
    (obj [("type", JsString "Tuple");
          ("members",
           JsArray [obj [("type", JsString "Boolean")];
                    obj [("type", JsString "NotAKind")]])])
  = Normal false /\
  isSchemaType (obj [("type", JsString "Tuple"); ("members", JsArray [])])
  = Normal true.
Proof. repeat split. Qed.

Example number_key_examples :
  isSchemaType
    (numberNode [("keyConfiguration", obj [("type", JsString "HASH")])])
  = Normal true /\
  isSchemaType
    (numberNode [("keyConfiguration", obj [("type", JsString "BOGUS")])])
  = Normal false /\
  isSchemaType
    (numberNode
       [("indexKeyConfigurations",
         JsArray [obj [("type", JsString "RANGE");
                       ("indexName", JsString "gsi1")]])])
  = Normal true /\
  isSchemaType
    (numberNode
       [("indexKeyConfigurations",
         JsArray [obj [("type", JsString "RANGE");
                       ("indexName", JsString "gsi1")];
                  obj [("type", JsString "RANGE")]])])
  = Normal false.
Proof. repeat split. Qed.

(** A role that is not a string is converted to one before the lookup:
    the nested array [[['HASH']]] prints as ["HASH"]. *)
Example array_role_accepted :
  isSchemaType
    (numberNode
       [("keyConfiguration",
         obj [("type", JsArray [JsArray [JsString "HASH"]])])])
  = Normal true.
Proof. reflexivity. Qed.

(** ** The claims *)

(** C1 (the code departs from the claim).  The kind ["toString"] is none
    of the tags the registry declares, yet [isSchemaType] answers [true]
    for a node of that kind: [arg.type in TypeTags] also finds the names
    [TypeTags] inherits from [Object.prototype]. *)
Theorem inherited_kind_accepted :
  ~ TypeTag "toString" /\
  isSchemaType inheritedKindNode = Normal true.
Proof.
  split; [|reflexivity].
  unfold TypeTag. simpl. intros H.
  repeat (destruct H as [H|H]; [discriminate|]). exact H.
Qed.

(** C2 (the code departs from the claim).  The node [{type: 'toString'}]
    fails the Base Contract Check as the specification words it, its kind
    being no string of the tag registry, yet [isBaseType] lets it through
    and [isSchemaType] answers [true]. *)
Theorem failed_base_contract_accepted :
  BaseContractCheck inheritedKindNode = false /\
  isBaseType inheritedKindNode = Normal true /\
  isSchemaType inheritedKindNode = Normal true.
Proof. repeat split. Qed.

(** C3, as stated, fails: a node whose [attributeName] is the empty
    string is a valid schema node. *)
Lemma empty_attributeName_accepted :
  Get emptyNameNode "attributeName" = Normal (JsString "") /\
  isSchemaType emptyNameNode = Normal true.
Proof. split; reflexivity. Qed.

(** C3, amended.  For every node whose [attributeName] is present,
    [isSchemaType] returns [true] only if that [attributeName] is a
    string; nothing more is asked of the string. *)
Theorem valid_attributeName_is_string (arg attributeName : JsValue) :
  Get arg "attributeName" = Normal attributeName ->
  attributeName <> JsUndefined ->
  isSchemaType arg = Normal true ->
  exists s, attributeName = JsString s.
Proof.
  intros Hget Hpresent Hvalid.
  destruct (isBaseType_total arg) as [Hbase|Hbase].
  - apply isBaseType_true in Hbase.
    destruct Hbase as [props [tag [a [_ [_ [_ [Ha [Hu|Hs]]]]]]]].
    + rewrite Hget in Ha. injection Ha as Ha. congruence.
    + rewrite Hget in Ha. injection Ha as Ha. subst a. exact Hs.
  - apply isSchemaType_not_base in Hbase. congruence.
Qed.

Lemma valid_attributeName_is_string_witness :
  (Get namedNode "attributeName" = Normal (JsString "id") /\
   JsString "id" <> JsUndefined /\
   isSchemaType namedNode = Normal true) /\
  exists s, JsString "id" = JsString s.
Proof.
  split.
  - split; [reflexivity|]. split; [discriminate|reflexivity].
  - apply (valid_attributeName_is_string namedNode (JsString "id")).
    + reflexivity.
    + discriminate.
    + reflexivity.
Defined.

(** C4 (the code departs from the claim).  The role ["toString"] is not
    in the two-element role registry, yet a Number node carrying the key
    configuration [{type: 'toString'}] passes [isKeyableType] and
    [isSchemaType]: [arg.type in KeyTypes] finds the inherited name. *)
Theorem inherited_role_accepted :
  ~ KeyType "toString" /\
  isBaseType inheritedRoleNode = Normal true /\
  isKeyableType inheritedRoleNode = Normal true /\
  isSchemaType inheritedRoleNode = Normal true.
Proof.
  repeat split.
  unfold KeyType. simpl. intros [H|[H|H]]; [discriminate|discriminate|exact H].
Qed.

(** C5.  A Custom node that passes [isBaseType] is valid exactly when
    [typeof] of both [marshall] and [unmarshall] is ['function'];
    otherwise [isSchemaType] returns [false].  The two functions are not
    run: the answer is [true] whatever calling them would do, throwing
    included. *)
Theorem isSchemaType_Custom_iff (arg marshall unmarshall : JsValue) :
  isBaseType arg = Normal true ->
  Get arg "type" = Normal (JsString "Custom") ->
  Get arg "marshall" = Normal marshall ->
  Get arg "unmarshall" = Normal unmarshall ->
  isSchemaType arg =
  Normal ((typeof marshall =? "function")
          && (typeof unmarshall =? "function")) /\
  (isSchemaType arg = Normal true <->
   (exists source call, marshall = JsFunction source call) /\
   (exists source call, unmarshall = JsFunction source call)).
Proof.
  intros Hbase Htag Hm Hu.
  assert (Heq : isSchemaType arg =
                Normal ((typeof marshall =? "function")
                        && (typeof unmarshall =? "function"))).
  { rewrite (isSchemaType_Custom _ Hbase Htag), Hm, Hu. cbn [bind andThen].
    destruct (typeof marshall =? "function"); reflexivity. }
  split; [exact Heq|]. rewrite Heq. split.
  - intros H. injection H as H. apply andb_true_iff in H. destruct H as [H1 H2].
    split.
    + destruct marshall; try destruct b; try discriminate. eauto.
    + destruct unmarshall; try destruct b; try discriminate. eauto.
  - intros [[s1 [c1 ->]] [s2 [c2 ->]]]. reflexivity.
Qed.

Lemma isSchemaType_Custom_iff_witness :
  isBaseType customNode = Normal true /\
  isSchemaType customNode = Normal true.
Proof.
  split; [reflexivity|].
  apply (isSchemaType_Custom_iff customNode
           (JsFunction "x => ({S: x})" (Throw UserError))
           (JsFunction "x => x.S" (Throw UserError))
           eq_refl eq_refl eq_refl eq_refl).
  split; eexists; eexists; reflexivity.
Defined.

(** C6.  A Document node that passes [isBaseType] is valid exactly when
    [members] is a non-null object, every value in [members] is itself
    valid, and [valueConstructor] is absent or a function.  One invalid
    member invalidates the node; when it is the only one, the check
    returns [false]. *)
Theorem isSchemaType_Document_iff (arg members valueConstructor : JsValue) :
  isBaseType arg = Normal true ->
  Get arg "type" = Normal (JsString "Document") ->
  Get arg "members" = Normal members ->
  Get arg "valueConstructor" = Normal valueConstructor ->
  (isSchemaType arg = Normal true <->
   (typeof members = "object" /\ members <> JsNull) /\
   (forall v, hasMember members v -> isSchemaType v = Normal true) /\
   (valueConstructor = JsUndefined \/
    typeof valueConstructor = "function")) /\
  (forall bad, hasMember members bad -> isSchemaType bad <> Normal true ->
               isSchemaType arg <> Normal true) /\
  (forall bad, hasMember members bad -> isSchemaType bad = Normal false ->
               (forall v, hasMember members v ->
                          exists b, isSchemaType v = Normal b) ->
               isSchemaType arg = Normal false).
Proof.
  intros Hbase Htag Hm Hvc.
  assert (Hiff : isSchemaType arg = Normal true <->
    (typeof members = "object" /\ members <> JsNull) /\
    (forall v, hasMember members v -> isSchemaType v = Normal true) /\
    (valueConstructor = JsUndefined \/
     typeof valueConstructor = "function")).
  { rewrite (isSchemaType_Document _ Hbase Htag), Hvc, Hm. cbn [bind].
    rewrite <- nonnull_object_guard, <- indexOf_function_undefined.
    destruct (negb (ToBoolean members) || negb (typeof members =? "object")).
    { split; [discriminate|]. intros [H _]. discriminate. }
    assert (Hloop := forOf_completes isSchemaType (memberValues members)).
    assert (Hret := forOf_returns isSchemaType (memberValues members)).
    destruct (forOf (memberValues members) _) as [[r|]|e]; cbn [bind].
    - rewrite (Hret r eq_refl). split; [discriminate|].
      intros [_ [Hall _]].
      assert (Hnone : Normal (Some r) = Normal (@None bool)).
      { apply Hloop. intros v Hv. apply Hall.
        apply memberValues_hasMember. exact Hv. }
      discriminate.
    - split.
      + intros H. injection H as H. repeat split; auto.
        intros v Hv. apply Hloop; [reflexivity|].
        apply memberValues_hasMember. exact Hv.
      + intros [_ [_ H]]. rewrite H. reflexivity.
    - split; [discriminate|].
      intros [_ [Hall _]].
      assert (Hnone : Throw e = Normal (@None bool)).
      { apply Hloop. intros v Hv. apply Hall.
        apply memberValues_hasMember. exact Hv. }
      discriminate. }
  split; [exact Hiff|]. split.
  - intros bad Hbad Hinvalid Hvalid. apply Hiff in Hvalid.
    destruct Hvalid as [_ [Hall _]]. apply Hinvalid. apply Hall. exact Hbad.
  - intros bad Hbad Hfalse Hnothrow.
    rewrite (isSchemaType_Document _ Hbase Htag), Hvc, Hm. cbn [bind].
    assert (Hguard : negb (ToBoolean members)
                     || negb (typeof members =? "object") = false).
    { apply nonnull_object_guard.
      destruct members; simpl in Hbad; try tauto;
        split; try reflexivity; discriminate. }
    rewrite Hguard.
    rewrite (@forOf_one_false isSchemaType (memberValues members) bad).
    + reflexivity.
    + intros v Hv. apply Hnothrow. apply memberValues_hasMember. exact Hv.
    + apply memberValues_hasMember. exact Hbad.
    + exact Hfalse.
Qed.

Lemma isSchemaType_Document_iff_witness :
  isBaseType documentNode = Normal true /\
  (isSchemaType documentNode = Normal true <->
   (typeof documentMembers = "object" /\ documentMembers <> JsNull) /\
   (forall v, hasMember documentMembers v -> isSchemaType v = Normal true) /\
   (JsUndefined = JsUndefined \/ typeof JsUndefined = "function")).
Proof.
  split; [reflexivity|].
  apply (isSchemaType_Document_iff documentNode documentMembers JsUndefined
           eq_refl eq_refl eq_refl eq_refl).
Defined.

(** C7.  A List or Map node that passes [isBaseType] is valid exactly
    when its [memberType] is; a [memberType] that carries an
    [attributeName] of its own is not refused for that. *)
Theorem isSchemaType_List_Map_iff (arg memberType : JsValue) :
  isBaseType arg = Normal true ->
  Get arg "type" = Normal (JsString "List") \/
  Get arg "type" = Normal (JsString "Map") ->
  Get arg "memberType" = Normal memberType ->
  isSchemaType arg = isSchemaType memberType /\
  (isSchemaType arg = Normal true <-> isSchemaType memberType = Normal true) /\
  (forall name,
      Get memberType "attributeName" = Normal (JsString name) ->
      isSchemaType memberType = Normal true ->
      isSchemaType arg = Normal true).
Proof.
  intros Hbase Htag Hm.
  assert (Heq : isSchemaType arg = isSchemaType memberType).
  { rewrite (isSchemaType_List_Map _ Hbase Htag), Hm. reflexivity. }
  rewrite Heq. repeat split; auto.
Qed.

Lemma isSchemaType_List_Map_iff_witness :
  (isBaseType namedMemberListNode = Normal true /\
   Get namedMemberListNode "memberType" = Normal namedNode /\
   Get namedNode "attributeName" = Normal (JsString "id")) /\
  isSchemaType namedMemberListNode = Normal true.
Proof.
  split; [repeat split|].
  apply (isSchemaType_List_Map_iff namedMemberListNode namedNode
           eq_refl (or_introl eq_refl) eq_refl).
  reflexivity.
Defined.

(** C8.  A Tuple node that passes [isBaseType] is valid exactly when
    [members] is an array all of whose elements are valid; the empty
    array qualifies. *)
Theorem isSchemaType_Tuple_iff (arg members : JsValue) :
  isBaseType arg = Normal true ->
  Get arg "type" = Normal (JsString "Tuple") ->
  Get arg "members" = Normal members ->
  (isSchemaType arg = Normal true <->
   exists elements,
     members = JsArray elements /\
     forall v, In v elements -> isSchemaType v = Normal true) /\
  (members = JsArray [] -> isSchemaType arg = Normal true).
Proof.
  intros Hbase Htag Hm.
  rewrite (isSchemaType_Tuple _ Hbase Htag), Hm. cbn [bind]. split.
  - destruct members as [| | | | | | | |elements|];
      try (split; [discriminate|intros [els [H _]]; discriminate]).
    cbn [isArray negb arrayElements].
    assert (Hloop := forOf_completes isSchemaType elements).
    assert (Hret := forOf_returns isSchemaType elements).
    destruct (forOf elements _) as [[r|]|e]; cbn [bind].
    + rewrite (Hret r eq_refl). split; [discriminate|].
      intros [els [Hels Hall]]. injection Hels as <-.
      apply Hloop in Hall. discriminate.
    + split; [|reflexivity]. intros _. exists elements.
      split; [reflexivity|]. apply Hloop. reflexivity.
    + split; [discriminate|].
      intros [els [Hels Hall]]. injection Hels as <-.
      apply Hloop in Hall. discriminate.
  - intros ->. reflexivity.
Qed.

Lemma isSchemaType_Tuple_iff_witness :
  (isBaseType tupleNode = Normal true /\
   Get tupleNode "members" = Normal tupleMembers) /\
  exists elements,
    tupleMembers = JsArray elements /\
    forall v, In v elements -> isSchemaType v = Normal true.
Proof.
  split; [split; reflexivity|].
  apply (isSchemaType_Tuple_iff tupleNode tupleMembers
           eq_refl eq_refl eq_refl).
  reflexivity.
Defined.

(** C9 (the code departs from the claim).  On a String node whose key
    configuration has an object for [type] that cannot be converted to a
    property key, [isSchemaType] throws a TypeError instead of returning
    a boolean: [isKeyConfiguration] applies [in] to [arg.type] without
    the [typeof] test that [isBaseType] makes first. *)
Theorem isSchemaType_throws :
  isBaseType unconvertibleRoleNode = Normal true /\
  isSchemaType unconvertibleRoleNode = Throw TypeError.
Proof. split; reflexivity. Qed.

(** C10.  A Binary, String or Number node whose [keyConfiguration] is
    [null] is refused, although the node that merely omits the field is
    accepted. *)
Theorem null_keyConfiguration_rejected (arg : JsValue) :
  isBaseType arg = Normal true ->
  Get arg "type" = Normal (JsString "Binary") \/
  Get arg "type" = Normal (JsString "String") \/
  Get arg "type" = Normal (JsString "Number") ->
  Get arg "keyConfiguration" = Normal JsNull ->
  isSchemaType arg = Normal false /\
  (forall kind, In kind ["Binary"; "String"; "Number"] ->
     isSchemaType (obj [("type", JsString kind)]) = Normal true /\
     isSchemaType (obj [("type", JsString kind);
                        ("keyConfiguration", JsNull)]) = Normal false).
Proof.
  intros Hbase Htag Hnull. split.
  - destruct (isBaseType_object _ Hbase) as [props ->].
    destruct Htag as [Htag|[Htag|Htag]].
    + rewrite isSchemaType_Binary_String; auto.
      apply isKeyableType_null_keyConfiguration. exact Hnull.
    + rewrite isSchemaType_Binary_String; auto.
      apply isKeyableType_null_keyConfiguration. exact Hnull.
    + rewrite isSchemaType_Number; auto.
      rewrite isKeyableType_null_keyConfiguration; auto.
  - intros kind [<-|[<-|[<-|[]]]]; split; reflexivity.
Qed.

Lemma null_keyConfiguration_rejected_witness :
  (isBaseType nullKeyNode = Normal true /\
   Get nullKeyNode "keyConfiguration" = Normal JsNull) /\
  isSchemaType nullKeyNode = Normal false.
Proof.
  split; [split; reflexivity|].
  exact (proj1 (null_keyConfiguration_rejected nullKeyNode
                  eq_refl (or_intror (or_introl eq_refl)) eq_refl)).
Defined.

(** ** Further properties of the validator *)

(** *** [isBaseType] *)



(** *** [isSchemaType] on what is not a container *)



(** X4.  A node that passes [isBaseType] and whose kind has no [case] of
    its own is valid whatever else it carries. *)
Theorem isSchemaType_plain_kind (arg : JsValue) (kind : string) :
  isBaseType arg = Normal true ->
  Get arg "type" = Normal (JsString kind) ->
  ~ In kind switchCases ->
  isSchemaType arg = Normal true.
Proof.
  intros Hbase Htag Hnot. enter_case Hbase Htag.
  assert (Hne : forall name, In name switchCases ->
                             isCase (JsString kind) name = false).
  { intros name Hin. simpl. apply String.eqb_neq. intros ->.
    exact (Hnot Hin). }
  unfold switchCases in Hne.
  rewrite !Hne by (simpl; tauto). reflexivity.
Qed.

Lemma isSchemaType_plain_kind_witness :
  isSchemaType
    (obj [("type", JsString "StringSet"); ("keyConfiguration", JsNull);
          ("members", JsNumber 3)])
  = Normal true.
Proof.
  apply (isSchemaType_plain_kind
           (obj [("type", JsString "StringSet"); ("keyConfiguration", JsNull);
                 ("members", JsNumber 3)])
           "StringSet" eq_refl eq_refl).
  simpl. intros H.
  repeat (destruct H as [H|H]; [discriminate H|]). exact H.
Defined.

Lemma indexOf_boolean_undefined (v : JsValue) :
  (indexOf ["boolean"; "undefined"] (typeof v) >? -1)%Z = true <->
  v = JsUndefined \/ exists b, v = JsBoolean b.
Proof.
  destruct v; simpl; split; intros H;
    try discriminate; try (left; reflexivity);
    try (right; eexists; reflexivity); try reflexivity;
    destruct H as [H|[b' H]]; discriminate.
Qed.

(** X5.  A Number node that passes [isBaseType] is valid exactly when
    [isKeyableType] accepts it and its [versionAttribute] is [undefined]
    or a boolean. *)
Theorem isSchemaType_Number_iff (arg versionAttribute : JsValue) :
  isBaseType arg = Normal true ->
  Get arg "type" = Normal (JsString "Number") ->
  Get arg "versionAttribute" = Normal versionAttribute ->
  (isSchemaType arg = Normal true <->
   isKeyableType arg = Normal true /\
   (versionAttribute = JsUndefined \/
    exists b, versionAttribute = JsBoolean b)).
Proof.
  intros Hbase Htag Hv.
  rewrite (isSchemaType_Number _ Hbase Htag), Hv. cbn [bind].
  rewrite andThen_true, <- indexOf_boolean_undefined. split.
  - intros [H1 H2]. injection H2 as H2. auto.
  - intros [H1 H2]. rewrite H2. auto.
Qed.

Lemma isSchemaType_Number_iff_witness :
  isSchemaType versionedNumberNode = Normal true <->
  isKeyableType versionedNumberNode = Normal true /\
  (JsBoolean true = JsUndefined \/ exists b, JsBoolean true = JsBoolean b).
Proof.
  apply (isSchemaType_Number_iff versionedNumberNode (JsBoolean true)
           eq_refl eq_refl eq_refl).
Defined.

(** *** Key configurations *)

Lemma Normal_inj (A : Type) (a b : A) : Normal a = Normal b -> a = b.
Proof. intros H. congruence. Qed.




(** X7.  For a key configuration whose [type] is a string, the verdict is
    [true] exactly when the string is [HASH], [RANGE] or a name inherited
    from [Object.prototype]; no error is raised. *)
Theorem isKeyConfiguration_string_role_iff (props : Properties)
  (role : string) :
  getOwn "type" props = Some (JsString role) ->
  (exists b, isKeyConfiguration (JsObject props) = Normal b) /\
  (isKeyConfiguration (JsObject props) = Normal true <->
   role = "HASH" \/ role = "RANGE" \/ In role ObjectPrototype).
Proof.
  intros Hrole.
  assert (Hget : Get (JsObject props) "type" = Normal (JsString role))
    by (simpl; rewrite Hrole; reflexivity).
  rewrite (isKeyConfiguration_string_role _ _ Hget).
  split; [eexists; reflexivity|]. split.
  - intros H. apply Normal_inj in H. apply HasProperty_string in H.
    destruct H as [[H|[H|[]]]|H]; auto.
  - intros H. f_equal. apply HasProperty_string.
    destruct H as [->|[->|H]]; [left; simpl; auto|left; simpl; auto|right].
    exact H.
Qed.

Lemma isKeyConfiguration_string_role_iff_witness :
  isKeyConfiguration gsiKey = Normal true <->
  "RANGE" = "HASH" \/ "RANGE" = "RANGE" \/ In "RANGE" ObjectPrototype.
Proof.
  apply (isKeyConfiguration_string_role_iff
           [("type", JsString "RANGE"); ("indexName", JsString "gsi1")]
           "RANGE" eq_refl).
Defined.




(** *** [isKeyableType] *)

(** X10.  A [keyConfiguration] that is present and refused settles the
    matter: [isKeyableType] answers [false] and [indexKeyConfigurations]
    plays no part, not even one that would raise an error. *)
Theorem refused_keyConfiguration_decides (props : Properties)
  (keyConfiguration : JsValue) :
  Get (JsObject props) "keyConfiguration" = Normal keyConfiguration ->
  keyConfiguration <> JsUndefined ->
  isKeyConfiguration keyConfiguration = Normal false ->
  isKeyableType (JsObject props) = Normal false.
Proof.
  intros Hk Hdef Hfalse. unfold isKeyableType. rewrite Hk. cbn [bind].
  destruct (Get_object props "indexKeyConfigurations") as [ikc ->].
  cbn [bind]. rewrite Hfalse.
  destruct keyConfiguration; try reflexivity. congruence.
Qed.

Lemma refused_keyConfiguration_decides_witness :
  isKeyableType
    (obj [("keyConfiguration", bogusIndexKey);
          ("indexKeyConfigurations", JsArray [throwingIndexKey])])
  = Normal false.
Proof.
  apply (refused_keyConfiguration_decides
           [("keyConfiguration", bogusIndexKey);
            ("indexKeyConfigurations", JsArray [throwingIndexKey])]
           bogusIndexKey eq_refl).
  - intros H. discriminate H.
  - reflexivity.
Defined.

(** X11.  With the [keyConfiguration] in order, an
    [indexKeyConfigurations] that is neither [undefined] nor an array,
    [null] for one, makes [isKeyableType] answer [false]. *)
Theorem non_array_indexKeyConfigurations_refused (props : Properties)
  (keyConfiguration indexKeyConfigurations : JsValue) :
  Get (JsObject props) "keyConfiguration" = Normal keyConfiguration ->
  Get (JsObject props) "indexKeyConfigurations"
  = Normal indexKeyConfigurations ->
  keyConfiguration = JsUndefined \/
  isKeyConfiguration keyConfiguration = Normal true ->
  indexKeyConfigurations <> JsUndefined ->
  isArray indexKeyConfigurations = false ->
  isKeyableType (JsObject props) = Normal false.
Proof.
  intros Hk Hi Hkey Hdef Harr. unfold isKeyableType.
  rewrite Hk, Hi. cbn [bind].
  assert (Hfirst : Normal (isUndefined keyConfiguration)
                   ||| isKeyConfiguration keyConfiguration = Normal true).
  { apply orElse_true. destruct Hkey as [->|H]; [left; reflexivity|].
    destruct (isUndefined keyConfiguration); auto. }
  rewrite Hfirst, Harr. cbn [andThen bind].
  destruct indexKeyConfigurations; try reflexivity. congruence.
Qed.

Lemma non_array_indexKeyConfigurations_refused_witness :
  isKeyableType (obj [("indexKeyConfigurations", gsiKey)]) = Normal false.
Proof.
  apply (non_array_indexKeyConfigurations_refused
           [("indexKeyConfigurations", gsiKey)] JsUndefined gsiKey
           eq_refl eq_refl (or_introl eq_refl)).
  - intros H. discriminate H.
  - reflexivity.
Defined.

Lemma mapM_throws_at (f : JsValue -> Completion bool)
  (before after : list JsValue) (bad : JsValue) (e : JsError) :
  (forall v, In v before -> exists b, f v = Normal b) ->
  f bad = Throw e ->
  mapM f (before ++ bad :: after) = Throw e.
Proof.
  induction before as [|x rest IH]; intros Hbefore Hbad; simpl.
  - rewrite Hbad. reflexivity.
  - destruct (Hbefore x (or_introl eq_refl)) as [b ->]. cbn [bind].
    rewrite IH; [reflexivity| |exact Hbad].
    intros v Hv. apply Hbefore. right. exact Hv.
Qed.

(** X12.  Every entry of [indexKeyConfigurations] is examined: an entry
    on which [isIndexKeyConfiguration] throws makes [isKeyableType] throw
    even when an entry before it was already refused. *)
Theorem all_index_entries_examined (props : Properties)
  (keyConfiguration : JsValue) (before after : list JsValue)
  (bad : JsValue) (e : JsError) :
  Get (JsObject props) "keyConfiguration" = Normal keyConfiguration ->
  Get (JsObject props) "indexKeyConfigurations"
  = Normal (JsArray (before ++ bad :: after)) ->
  keyConfiguration = JsUndefined \/
  isKeyConfiguration keyConfiguration = Normal true ->
  (forall v, In v before -> exists b, isIndexKeyConfiguration v = Normal b) ->
  isIndexKeyConfiguration bad = Throw e ->
  isKeyableType (JsObject props) = Throw e.
Proof.
  intros Hk Hi Hkey Hbefore Hbad. unfold isKeyableType.
  rewrite Hk, Hi. cbn [bind].
  assert (Hfirst : Normal (isUndefined keyConfiguration)
                   ||| isKeyConfiguration keyConfiguration = Normal true).
  { apply orElse_true. destruct Hkey as [->|H]; [left; reflexivity|].
    destruct (isUndefined keyConfiguration); auto. }
  rewrite Hfirst. cbn [andThen bind isUndefined orElse isArray arrayMap].
  rewrite (mapM_throws_at _ _ after _ _ Hbefore Hbad). reflexivity.
Qed.

Lemma all_index_entries_examined_witness :
  isKeyableType
    (obj [("indexKeyConfigurations",
           JsArray [bogusIndexKey; throwingIndexKey; gsiKey])])
  = Throw TypeError.
Proof.
  apply (all_index_entries_examined
           [("indexKeyConfigurations",
             JsArray [bogusIndexKey; throwingIndexKey; gsiKey])]
           JsUndefined [bogusIndexKey] [gsiKey] throwingIndexKey TypeError
           eq_refl eq_refl (or_introl eq_refl)).
  - intros v [<-|[]]. exists false. reflexivity.
  - reflexivity.
Defined.

(** *** The loops of [isSchemaType] *)

Lemma forOf_first_false (check : JsValue -> Completion bool)
  (before after : list JsValue) (bad : JsValue) :
  (forall v, In v before -> check v = Normal true) ->
  check bad = Normal false ->
  forOf (before ++ bad :: after) (rejectInvalid check) = Normal (Some false).
Proof.
  induction before as [|x rest IH]; intros Hbefore Hbad; simpl.
  - unfold rejectInvalid at 1. rewrite Hbad. reflexivity.
  - unfold rejectInvalid at 1. rewrite (Hbefore x (or_introl eq_refl)).
    cbn [bind negb]. apply IH; [|exact Hbad].
    intros v Hv. apply Hbefore. right. exact Hv.
Qed.


(** X13.  A Tuple is refused at its first invalid element: the elements
    after it are not looked at, so the answer is [false] even when one of
    them would raise an error. *)
Theorem Tuple_stops_at_first_invalid (arg : JsValue)
  (before after : list JsValue) (bad : JsValue) :
  isBaseType arg = Normal true ->
  Get arg "type" = Normal (JsString "Tuple") ->
  Get arg "members" = Normal (JsArray (before ++ bad :: after)) ->
  (forall v, In v before -> isSchemaType v = Normal true) ->
  isSchemaType bad = Normal false ->
  isSchemaType arg = Normal false.
Proof.
  intros Hbase Htag Hm Hbefore Hbad.
  rewrite (isSchemaType_Tuple _ Hbase Htag), Hm.
  cbn [bind isArray negb arrayElements].
  rewrite (forOf_first_false _ _ after _ Hbefore Hbad). reflexivity.
Qed.

Lemma Tuple_stops_at_first_invalid_witness :
  isSchemaType
    (obj [("type", JsString "Tuple");
          ("members",
           JsArray [namedNode; JsNumber 1; throwingStringNode])])
  = Normal false /\
  isSchemaType throwingStringNode = Throw TypeError.
Proof.
  split; [|reflexivity].
  apply (Tuple_stops_at_first_invalid
           (obj [("type", JsString "Tuple");
                 ("members",
                  JsArray [namedNode; JsNumber 1; throwingStringNode])])
           [namedNode] [throwingStringNode] (JsNumber 1)
           eq_refl eq_refl eq_refl).
  - intros v [<-|[]]. reflexivity.
  - reflexivity.
Defined.

(** *** Validity over the tree *)

Lemma valid_is_base (arg : JsValue) :
  isSchemaType arg = Normal true -> isBaseType arg = Normal true.
Proof.
  intros H. destruct (isBaseType_total arg) as [Hb|Hb]; [exact Hb|].
  rewrite (isSchemaType_not_base _ Hb) in H. discriminate H.
Qed.

Lemma valid_child (arg child : JsValue) :
  isSchemaType arg = Normal true -> schemaChild arg child ->
  isSchemaType child = Normal true.
Proof.
  intros Hvalid Hchild. assert (Hbase := valid_is_base _ Hvalid).
  destruct Hchild as [memberType Htag Hm|members v Htag Hm Hv
                      |elements v Htag Hm Hv].
  - rewrite (isSchemaType_List_Map _ Hbase Htag), Hm in Hvalid.
    exact Hvalid.
  - rewrite (isSchemaType_Document _ Hbase Htag) in Hvalid.
    destruct (Get arg "valueConstructor") as [vc|]; [|discriminate].
    rewrite Hm in Hvalid. cbn [bind] in Hvalid.
    destruct (negb (ToBoolean members) || negb (typeof members =? "object"));
      [discriminate|].
    assert (Hloop := forOf_completes isSchemaType (memberValues members)).
    assert (Hret := forOf_returns isSchemaType (memberValues members)).
    destruct (forOf (memberValues members) _) as [[r|]|e];
      cbn [bind] in Hvalid; [|..|discriminate].
    + rewrite (Hret r eq_refl) in Hvalid. discriminate.
    + apply Hloop; [reflexivity|]. apply memberValues_hasMember. exact Hv.
  - rewrite (isSchemaType_Tuple _ Hbase Htag), Hm in Hvalid.
    cbn [bind isArray negb arrayElements] in Hvalid.
    assert (Hloop := forOf_completes isSchemaType elements).
    assert (Hret := forOf_returns isSchemaType elements).
    destruct (forOf elements _) as [[r|]|e];
      cbn [bind] in Hvalid; [|..|discriminate].
    + rewrite (Hret r eq_refl) in Hvalid. discriminate.
    + apply Hloop; [reflexivity|exact Hv].
Qed.

(** X14.  Validity is hereditary: in a valid schema every node the
    validator can reach, at any depth, is itself valid and passes
    [isBaseType]. *)
Theorem valid_descendants (arg d : JsValue) :
  isSchemaType arg = Normal true ->
  schemaDescendant arg d ->
  isSchemaType d = Normal true /\ isBaseType d = Normal true.
Proof.
  intros Hvalid Hd. induction Hd as [arg|arg child d Hchild Hd IH].
  - split; [exact Hvalid|apply valid_is_base; exact Hvalid].
  - apply IH. eapply valid_child; eassumption.
Qed.

Lemma valid_descendants_witness :
  isSchemaType namedNode = Normal true /\ isBaseType namedNode = Normal true.
Proof.
  apply (valid_descendants nestedNode namedNode eq_refl).
  apply descendant_step with (child := namedMemberListNode).
  - apply child_document with (members :=
      obj [("tags", namedMemberListNode); ("pair", tupleNode)]);
      [reflexivity|reflexivity|].
    exists "tags". reflexivity.
  - apply descendant_step with (child := namedNode).
    + apply child_memberType; [left; reflexivity|reflexivity].
    + apply descendant_self.
Defined.






(** X16.  [isSchemaType] looks at ten properties of the node it is given
    and at nothing else: two objects that agree on those ten get the same
    answer, so further properties and the order of the properties make no
    difference. *)
Theorem unread_properties_ignored (props props' : Properties) :
  (forall name, In name nodeFields ->
                getOwn name props = getOwn name props') ->
  isSchemaType (JsObject props) = isSchemaType (JsObject props').
Proof.
  intros Hsame.
  assert (Hget : forall name, In name nodeFields ->
            Get (JsObject props) name = Get (JsObject props') name).
  { intros name Hin. cbn [Get]. rewrite (Hsame name Hin). reflexivity. }
  unfold nodeFields in Hget.
  rewrite (isSchemaType_eq (JsObject props)).
  rewrite (isSchemaType_eq (JsObject props')).
  unfold isSchemaType_body, isBaseType, isKeyableType.
  rewrite !(Hget "type") by (simpl; tauto).
  rewrite !(Hget "attributeName") by (simpl; tauto).
  rewrite !(Hget "keyConfiguration") by (simpl; tauto).
  rewrite !(Hget "indexKeyConfigurations") by (simpl; tauto).
  rewrite !(Hget "marshall") by (simpl; tauto).
  rewrite !(Hget "unmarshall") by (simpl; tauto).
  rewrite !(Hget "valueConstructor") by (simpl; tauto).
  rewrite !(Hget "members") by (simpl; tauto).
  rewrite !(Hget "memberType") by (simpl; tauto).
  rewrite !(Hget "versionAttribute") by (simpl; tauto).
  reflexivity.
Qed.

Lemma unread_properties_ignored_witness :
  isSchemaType
    (obj [("defaultProvider", JsNull);
          ("memberType", namedNode);
          ("type", JsString "List")])
  = isSchemaType namedMemberListNode.
Proof.
  apply (unread_properties_ignored
           [("defaultProvider", JsNull);
            ("memberType", namedNode);
            ("type", JsString "List")]
           [("type", JsString "List"); ("memberType", namedNode)]).
  intros name Hin. simpl in Hin.
  repeat (destruct Hin as [<-|Hin]; [reflexivity|]). destruct Hin.
Defined.





Lemma ToString_inArrays (depth : nat) (s : string) :
  ToString (inArrays depth (JsString s)) = Normal s.
Proof.
  induction depth as [|d IH]; [reflexivity|].
  cbn [inArrays]. cbn [ToString]. fold ToString.
  destruct d as [|d'].
  - reflexivity.
  - cbn [inArrays] in *. rewrite IH. reflexivity.
Qed.

(** X19.  The role of a key configuration is converted to a property key
    before it is looked up, so a role string inside any number of
    one-element arrays is taken for the string itself. *)
Theorem role_inside_arrays (props props' : Properties) (depth : nat)
  (role : string) :
  getOwn "type" props = Some (inArrays depth (JsString role)) ->
  getOwn "type" props' = Some (JsString role) ->
  isKeyConfiguration (JsObject props) = isKeyConfiguration (JsObject props').
Proof.
  intros H H'. unfold isKeyConfiguration. cbn [Get ToBoolean].
  rewrite H, H'. cbn [bind andThen]. unfold In_.
  destruct depth as [|d]; [reflexivity|].
  assert (Hs := ToString_inArrays (S d) role).
  cbn [inArrays] in *. cbn [ToPropertyKey].
  rewrite Hs. reflexivity.
Qed.

Lemma role_inside_arrays_witness :
  isKeyConfiguration (obj [("type", JsArray [JsArray [JsString "HASH"]])])
  = isKeyConfiguration (obj [("type", JsString "HASH")]).
Proof.
  apply (role_inside_arrays
           [("type", JsArray [JsArray [JsString "HASH"]])]
           [("type", JsString "HASH")] 2 "HASH" eq_refl eq_refl).
Defined.

(** X20.  A Custom node is not handed to [isKeyableType]: two Custom
    nodes that agree on [type], [attributeName], [marshall] and
    [unmarshall] get the same answer whatever their key configurations
    are. *)
Theorem Custom_key_configuration_unchecked (props props' : Properties) :
  getOwn "type" props = Some (JsString "Custom") ->
  (forall name,
      In name ["type"; "attributeName"; "marshall"; "unmarshall"] ->
      getOwn name props = getOwn name props') ->
  isSchemaType (JsObject props) = isSchemaType (JsObject props').
Proof.
  intros Htag Hsame.
  assert (Hget : forall name,
            In name ["type"; "attributeName"; "marshall"; "unmarshall"] ->
            Get (JsObject props) name = Get (JsObject props') name).
  { intros name Hin. cbn [Get]. rewrite (Hsame name Hin). reflexivity. }
  assert (Htag' : Get (JsObject props') "type" = Normal (JsString "Custom")).
  { rewrite <- Hget by (simpl; tauto). cbn [Get]. rewrite Htag. reflexivity. }
  assert (Hbase : isBaseType (JsObject props) = isBaseType (JsObject props')).
  { unfold isBaseType.
    rewrite !(Hget "type") by (simpl; tauto).
    rewrite !(Hget "attributeName") by (simpl; tauto). reflexivity. }
  destruct (isBaseType_total (JsObject props')) as [Hb|Hb].
  - rewrite (isSchemaType_Custom (JsObject props')); [|exact Hb|exact Htag'].
    rewrite (isSchemaType_Custom (JsObject props));
      [|rewrite Hbase; exact Hb
       |rewrite (Hget "type") by (simpl; tauto); exact Htag'].
    rewrite (Hget "marshall") by (simpl; tauto).
    rewrite (Hget "unmarshall") by (simpl; tauto). reflexivity.
  - rewrite (isSchemaType_not_base _ Hb).
    apply isSchemaType_not_base. rewrite Hbase. exact Hb.
Qed.

Lemma Custom_key_configuration_unchecked_witness :
  isSchemaType
    (obj [("type", JsString "Custom");
          ("marshall", JsFunction "x => ({S: x})" (Throw UserError));
          ("unmarshall", JsFunction "x => x.S" (Throw UserError));
          ("keyConfiguration", throwingIndexKey)])
  = isSchemaType customNode.
Proof.
  apply (Custom_key_configuration_unchecked
           [("type", JsString "Custom");
            ("marshall", JsFunction "x => ({S: x})" (Throw UserError));
            ("unmarshall", JsFunction "x => x.S" (Throw UserError));
            ("keyConfiguration", throwingIndexKey)]
           [("type", JsString "Custom");
            ("marshall", JsFunction "x => ({S: x})" (Throw UserError));
            ("unmarshall", JsFunction "x => x.S" (Throw UserError))]
           eq_refl).
  intros name Hin. simpl in Hin.
  repeat (destruct Hin as [<-|Hin]; [reflexivity|]). destruct Hin.
Defined.
